(** * The login slice of the housekeeping store

    A shallow embedding of [src/housekeeping_state/reducers/loginSlice.ts]:
    the [LoginState] record, the slice reducer built by [createSlice]
    (two case reducers and the three [loginAsync] outcome handlers), the
    selectors [selectToken] and [selectLoggedIn], and the thunks
    [logOutIfLoggedIn] and [loginAsync], followed by the properties the
    specification states about them.

    Thunks run in a state monad over the root state of the store:
    [getState] reads it and [dispatch] replaces it by the root reducer's
    result; the value of the computation is what the thunk hands back to
    the caller of [dispatch].  The other slices of the store live in [../store] and are kept
    abstract: a type [Other] and its reducer [otherReducer]. *)

From Stdlib Require Import String List Bool PeanoNat.
From ExtLib Require Import Structures.Monad Structures.MonadState.
From ExtLib Require Import Data.Monads.StateMonad.
Import ListNotations.
Import MonadNotation.
Local Open Scope string_scope.
Local Open Scope monad_scope.

Set Implicit Arguments.

(** ** Data model *)

(** [status: "idle" | "loading" | "failed"] *)
Inductive Status : Type :=
| idle
| loading
| failed.

(** [interface LoginState] *)
Record LoginState : Type := mkLoginState {
  loggedIn : bool;
  token : string;
  status : Status
}.

(** Assignments to the fields of the Immer draft. *)
Definition set_loggedIn (b : bool) (state : LoginState) : LoginState :=
  {| loggedIn := b; token := token state; status := status state |}.

Definition set_token (t : string) (state : LoginState) : LoginState :=
  {| loggedIn := loggedIn state; token := t; status := status state |}.

Definition set_status (st : Status) (state : LoginState) : LoginState :=
  {| loggedIn := loggedIn state; token := token state; status := st |}.

Definition initialState : LoginState :=
  {| loggedIn := false; token := ""; status := idle |}.

(** ** Actions

    The action creators of the slice ([logIn], [logOut]), the three
    lifecycle actions that [createAsyncThunk] generates for
    ['login/fetchLogin'], and the actions of the other slices, known here
    only by their type string.  The rejected action carries, in its
    [error] field, the reason the payload creator failed with. *)
Inductive Action : Type :=
| logIn (payload : string)
| logOut
| loginAsync_pending
| loginAsync_fulfilled (payload : string)
| loginAsync_rejected (error : string)
| foreignAction (type : string).

(** ** Case reducers *)

(** [logIn: (state, action) => { state.token = action.payload;
                                  state.loggedIn = true; }] *)
Definition reduce_logIn (state : LoginState) (payload : string) : LoginState :=
  let state := set_token payload state in
  let state := set_loggedIn true state in
  state.

(** [logOut: (state) => { state.loggedIn = false; state.token = ""; }] *)
Definition reduce_logOut (state : LoginState) : LoginState :=
  let state := set_loggedIn false state in
  let state := set_token "" state in
  state.

(** [.addCase(loginAsync.pending, (state) => { state.status = 'loading'; })] *)
Definition reduce_pending (state : LoginState) : LoginState :=
  set_status loading state.

(** [.addCase(loginAsync.fulfilled, (state, action) => {
       state.status = 'idle'; state.token = action.payload;
       state.loggedIn = true; })] *)
Definition reduce_fulfilled (state : LoginState) (payload : string) : LoginState :=
  let state := set_status idle state in
  let state := set_token payload state in
  let state := set_loggedIn true state in
  state.

(** [.addCase(loginAsync.rejected, (state) => {
       state.status = 'failed'; state.loggedIn = false; state.token = ""; })] *)
Definition reduce_rejected (state : LoginState) : LoginState :=
  let state := set_status failed state in
  let state := set_loggedIn false state in
  let state := set_token "" state in
  state.

(** [loginSlice.reducer]: the case reducer of the action's type, and the
    state as it is for every action the slice has no case for. *)
Definition loginSlice_reducer (state : LoginState) (action : Action) : LoginState :=
  match action with
  | logIn payload => reduce_logIn state payload
  | logOut => reduce_logOut state
  | loginAsync_pending => reduce_pending state
  | loginAsync_fulfilled payload => reduce_fulfilled state payload
  | loginAsync_rejected _ => reduce_rejected state
  | foreignAction _ => state
  end.

(** ** The store *)

(** [RootState]: the [login] slice next to the slices of [../store]. *)
Record RootState (Other : Type) : Type := mkRootState {
  login : LoginState;
  others : Other
}.

(** The root reducer hands every action to every slice reducer. *)
Definition rootReducer (Other : Type) (otherReducer : Other -> Action -> Other)
    (root : RootState Other) (action : Action) : RootState Other :=
  {| login := loginSlice_reducer (login root) action;
     others := otherReducer (others root) action |}.

(** ** Selectors *)

(** [selectToken = (state) => state.login.token] *)
Definition selectToken (Other : Type) (state : RootState Other) : string :=
  token (login state).

(** [selectLoggedIn = (state) => state.login.token != "" && state.login.loggedIn] *)
Definition selectLoggedIn (Other : Type) (state : RootState Other) : bool :=
  negb (String.eqb (token (login state)) "") && loggedIn (login state).

(** ** Thunks *)

(** An [AppThunk] receives [dispatch] and [getState]; here it is a
    computation in the state monad over the root state. *)
Abbreviation AppThunk Other := (state (RootState Other) unit) (only parsing).

Definition getState (Other : Type) : state (RootState Other) (RootState Other) :=
  get.

Definition dispatch (Other : Type) (otherReducer : Other -> Action -> Other)
    (action : Action) : AppThunk Other :=
  root <- get ;;
  put (rootReducer otherReducer root action).

(** [logOutIfLoggedIn = () => (dispatch, getState) => {
       const isLoggedIn = selectLoggedIn(getState());
       if (isLoggedIn) { dispatch(logOut()); } }] *)
Definition logOutIfLoggedIn (Other : Type) (otherReducer : Other -> Action -> Other)
    : AppThunk Other :=
  current <- getState Other ;;
  let isLoggedIn := selectLoggedIn current in
  if isLoggedIn then dispatch otherReducer logOut else ret tt.

(** A settled promise: resolved with a value, or rejected with a reason. *)
Inductive Settled (A : Type) : Type :=
| resolved (value : A)
| rejected (reason : string).

Arguments resolved {A} value.
Arguments rejected {A} reason.

(** The argument of [loginAsync] and the response of the login client. *)
Record Credentials : Type := mkCredentials {
  user : string;
  password : string
}.

Record Response : Type := mkResponse {
  data : string
}.

(** The payload creator of [loginAsync]:
    [async (data) => { const response = await fetchLogin(data.user, data.password);
                       return response.data; }].
    [fetchLogin] is the client of [../clients/LoginClient]; the promise
    it returns resolves with a response or is rejected, and the [await]
    passes a rejection on. *)
Definition payloadCreator (fetchLogin : string -> string -> Settled Response)
    (arg : Credentials) : Settled string :=
  match fetchLogin (user arg) (password arg) with
  | resolved response => resolved (data response)
  | rejected reason => rejected reason
  end.

(** The final action [createAsyncThunk] builds once the payload creator
    settles: [fulfilled] with the returned value, or [rejected] with the
    error it caught. *)
Definition settled (outcome : Settled string) : Action :=
  match outcome with
  | resolved payload => loginAsync_fulfilled payload
  | rejected reason => loginAsync_rejected reason
  end.

(** One invocation of [loginAsync] with nothing dispatched in between:
    [pending] first, then the final action.  The promise that
    [dispatch(loginAsync(arg))] returns never rejects: it resolves with
    the final action, the rejected one included. *)
Definition loginAsync (Other : Type) (otherReducer : Other -> Action -> Other)
    (fetchLogin : string -> string -> Settled Response) (arg : Credentials)
    : state (RootState Other) (Settled Action) :=
  dispatch otherReducer loginAsync_pending ;;
  let finalAction := settled (payloadCreator fetchLogin arg) in
  dispatch otherReducer finalAction ;;
  ret (resolved finalAction).

(** The state of the store after a thunk ran. *)
Definition runThunk (Other A : Type) (thunk : state (RootState Other) A)
    (root : RootState Other) : RootState Other :=
  execState thunk root.

(** What the thunk hands back to the caller of [dispatch]. *)
Definition resultOf (Other A : Type) (thunk : state (RootState Other) A)
    (root : RootState Other) : A :=
  evalState thunk root.

(** The error that reaches the caller of [dispatch(loginAsync(arg))]:
    the reason of a rejected promise, or the [error] of a rejected action
    the promise resolved with. *)
Definition surfacedError (outcome : Settled Action) : option string :=
  match outcome with
  | rejected reason => Some reason
  | resolved (loginAsync_rejected error) => Some error
  | resolved _ => None
  end.

(** ** Runs of dispatched actions *)

(** The login slice after a list of actions went through the store. *)
Definition runActions (state : LoginState) (actions : list Action) : LoginState :=
  fold_left loginSlice_reducer actions state.

(** The value of [status] after each action of a run. *)
Fixpoint statusTrace (state : LoginState) (actions : list Action) : list Status :=
  match actions with
  | [] => []
  | action :: rest =>
      let state' := loginSlice_reducer state action in
      status state' :: statusTrace state' rest
  end.

Definition Status_eqb (a b : Status) : bool :=
  match a, b with
  | idle, idle | loading, loading | failed, failed => true
  | _, _ => false
  end.

(** The moves of the order [idle/failed -> loading -> {idle, failed}]. *)
Definition lifecycleMove (a b : Status) : bool :=
  match a, b with
  | idle, loading | failed, loading => true
  | loading, idle | loading, failed => true
  | _, _ => false
  end.

(** Every change of [status] along the trace is a move of the order. *)
Fixpoint followsLifecycle (current : Status) (trace : list Status) : bool :=
  match trace with
  | [] => true
  | next :: rest =>
      (Status_eqb current next || lifecycleMove current next)
      && followsLifecycle next rest
  end.

(** The actions that come from [loginAsync]. *)
Definition isLoginAsyncAction (action : Action) : bool :=
  match action with
  | loginAsync_pending | loginAsync_fulfilled _ | loginAsync_rejected _ => true
  | _ => false
  end.

(** Runs in which the invocations of [loginAsync] do not overlap: a
    [pending] only when no invocation is in flight, a [fulfilled] or
    [rejected] only for the invocation in flight; any other action at any
    time. *)
Fixpoint sequential (inFlight : bool) (actions : list Action) : bool :=
  match actions with
  | [] => true
  | action :: rest =>
      match action with
      | loginAsync_pending => negb inFlight && sequential true rest
      | loginAsync_fulfilled _ | loginAsync_rejected _ =>
          inFlight && sequential false rest
      | _ => sequential inFlight rest
      end
  end.

(** ** States and collaborators used in the examples *)

(** What the specification asks of a state right after a login. *)
Definition loginPostcondition (state : LoginState) : Prop :=
  loggedIn state = true /\ token state <> "" /\ status state <> loading.

(** A store with no other slice. *)
Definition noOther (rest : unit) (_ : Action) : unit := rest.

Definition rootOf (state : LoginState) : RootState unit :=
  {| login := state; others := tt |}.

(** The flag set and the token empty. *)
Definition desyncState : LoginState :=
  {| loggedIn := true; token := ""; status := idle |}.

Definition sessionState : LoginState :=
  {| loggedIn := true; token := "tok123"; status := idle |}.

Definition failedState : LoginState :=
  {| loggedIn := false; token := ""; status := failed |}.

Definition someError : string := "Network Error".

Definition rejectingClient (_ _ : string) : Settled Response :=
  rejected someError.

Definition acceptingClient (_ _ : string) : Settled Response :=
  resolved {| data := "tok123" |}.

Definition someCredentials : Credentials :=
  {| user := "a"; password := "b" |}.

(** Two invocations of [loginAsync] in flight at once: the first is
    fulfilled, then the second is rejected. *)
Definition overlappingRun : list Action :=
  [loginAsync_pending; loginAsync_pending;
   loginAsync_fulfilled "tok123"; loginAsync_rejected someError].

(** Two invocations one after the other, with a log-out in between. *)
Definition sequentialRun : list Action :=
  [loginAsync_pending; loginAsync_fulfilled "tok123"; logOut;
   loginAsync_pending; loginAsync_rejected someError; logIn "tok123"].

(** ** Runs of the whole store *)

(** The store after a list of actions was dispatched one by one. *)
Definition runStore (Other : Type) (otherReducer : Other -> Action -> Other)
    (root : RootState Other) (actions : list Action) : RootState Other :=
  fold_left (rootReducer otherReducer) actions root.

(** The number of [loginAsync] invocations that have dispatched [pending]
    and have not settled yet, after a run that started with [n] of them. *)
Fixpoint inFlightCount (n : nat) (actions : list Action) : nat :=
  match actions with
  | [] => n
  | action :: rest =>
      match action with
      | loginAsync_pending => inFlightCount (S n) rest
      | loginAsync_fulfilled _ | loginAsync_rejected _ =>
          inFlightCount (Nat.pred n) rest
      | _ => inFlightCount n rest
      end
  end.

(** A client that answers with the empty token. *)
Definition emptyTokenClient (_ _ : string) : Settled Response :=
  resolved {| data := "" |}.

(** ** Basic facts *)

Lemma token_nonempty_eqb (t : string) : t <> "" -> String.eqb t "" = false.
Proof. intro H. apply String.eqb_neq. exact H. Qed.

Lemma lifecycleMove_or_same_refl (a : Status) :
  Status_eqb a a || lifecycleMove a a = true.
Proof. destruct a; reflexivity. Qed.

Lemma Status_eqb_eq (a b : Status) : Status_eqb a b = true <-> a = b.
Proof. destruct a, b; simpl; split; congruence. Qed.

(** Only the handlers of [loginAsync] write [status]. *)
Lemma status_frame (state : LoginState) (action : Action) :
  isLoginAsyncAction action = false ->
  status (loginSlice_reducer state action) = status state.
Proof. destruct action; simpl; intro H; try discriminate H; reflexivity. Qed.

Section Store.

Variable Other : Type.
Variable otherReducer : Other -> Action -> Other.

(** A dispatched action goes through the root reducer. *)
Lemma runThunk_dispatch (root : RootState Other) (action : Action) :
  runThunk (dispatch otherReducer action) root
  = rootReducer otherReducer root action.
Proof. reflexivity. Qed.

(** The conditional log-out, as a function of the store it starts from. *)
Lemma runThunk_logOutIfLoggedIn (root : RootState Other) :
  runThunk (logOutIfLoggedIn otherReducer) root
  = if selectLoggedIn root then rootReducer otherReducer root logOut else root.
Proof.
  unfold runThunk, logOutIfLoggedIn, getState, execState.
  cbn -[selectLoggedIn rootReducer].
  destruct (selectLoggedIn root); reflexivity.
Qed.

Lemma login_rootReducer (root : RootState Other) (action : Action) :
  login (rootReducer otherReducer root action)
  = loginSlice_reducer (login root) action.
Proof. reflexivity. Qed.

Lemma runThunk_loginAsync (root : RootState Other)
    (fetchLogin : string -> string -> Settled Response) (arg : Credentials) :
  login (runThunk (loginAsync otherReducer fetchLogin arg) root)
  = runActions (login root)
      [loginAsync_pending; settled (payloadCreator fetchLogin arg)].
Proof. reflexivity. Qed.

(** ** The derived query *)

(** C1: whenever the token field is the empty string, [selectLoggedIn]
    answers [false], whatever the [loggedIn] flag holds. *)
Theorem selectLoggedIn_empty_token (root : RootState Other) :
  token (login root) = "" -> selectLoggedIn root = false.
Proof.
  intro Htoken. unfold selectLoggedIn. rewrite Htoken. reflexivity.
Qed.

(** ** The synchronous transitions *)

(** C3: for a payload [t] other than the empty string and any starting
    state, after [logIn t] the query [selectLoggedIn] answers [true] and
    [selectToken] returns [t]. *)
Theorem logIn_authenticates (root : RootState Other) (t : string) :
  t <> "" ->
  selectLoggedIn (rootReducer otherReducer root (logIn t)) = true
  /\ selectToken (rootReducer otherReducer root (logIn t)) = t.
Proof.
  intro Ht. unfold selectLoggedIn, selectToken. simpl.
  rewrite (token_nonempty_eqb Ht). split; reflexivity.
Qed.

(** C4: after [logOut], from any state, the token is empty and the flag
    is [false]; [selectLoggedIn] answers [false] and [selectToken]
    returns the empty string. *)
Theorem logOut_resets (root : RootState Other) :
  let root' := rootReducer otherReducer root logOut in
  token (login root') = "" /\ loggedIn (login root') = false
  /\ selectLoggedIn root' = false /\ selectToken root' = "".
Proof. repeat split. Qed.

(** C9: after [logIn] with the empty string as payload, from any state,
    the [loggedIn] flag is [true] while [selectLoggedIn] answers [false]. *)
Theorem logIn_empty_desync (root : RootState Other) :
  let root' := rootReducer otherReducer root (logIn "") in
  loggedIn (login root') = true /\ selectLoggedIn root' = false.
Proof. split; reflexivity. Qed.

(** C6: when [selectLoggedIn] answers [false], [logOutIfLoggedIn] leaves
    the store as it is; when it answers [true], the store ends as the
    [logOut] reducer leaves it: the root reducer applied to [logOut], with
    the login slice equal to the [logOut] case reducer's result, flag down
    and token empty, which is also the store after dispatching [logOut]. *)
Theorem logOutIfLoggedIn_spec (root : RootState Other) :
  (selectLoggedIn root = false ->
   runThunk (logOutIfLoggedIn otherReducer) root = root)
  /\ (selectLoggedIn root = true ->
      runThunk (logOutIfLoggedIn otherReducer) root
      = rootReducer otherReducer root logOut
      /\ login (runThunk (logOutIfLoggedIn otherReducer) root)
         = reduce_logOut (login root)
      /\ login (runThunk (logOutIfLoggedIn otherReducer) root)
         = {| loggedIn := false; token := ""; status := status (login root) |}
      /\ runThunk (logOutIfLoggedIn otherReducer) root
         = runThunk (dispatch otherReducer logOut) root).
Proof.
  rewrite runThunk_dispatch, runThunk_logOutIfLoggedIn.
  split; intro Hsel; rewrite Hsel; repeat split.
Qed.

(** ** The handlers of [loginAsync] *)

(** C7: the pending handler sets [status] to [loading] and leaves
    [loggedIn] and [token] as they were. *)
Theorem pending_frame (state : LoginState) :
  let state' := loginSlice_reducer state loginAsync_pending in
  status state' = loading
  /\ loggedIn state' = loggedIn state
  /\ token state' = token state.
Proof. repeat split. Qed.

(** C10: when the fulfilled handler receives the empty string, from any
    state, the result has [loggedIn = true], an empty token and
    [status = idle], and [selectLoggedIn] answers [false]. *)
Theorem fulfilled_empty_desync (root : RootState Other) :
  let root' := rootReducer otherReducer root (loginAsync_fulfilled "") in
  loggedIn (login root') = true /\ token (login root') = ""
  /\ status (login root') = idle /\ selectLoggedIn root' = false.
Proof. repeat split. Qed.

(** C5, as the specification words it, fails in its middle part: the
    failure does not end in the state alone.  The promise of a rejected
    invocation resolves with the rejected action, and that action hands
    the client's error to the caller of [dispatch]. *)
Lemma loginAsync_error_surfaced :
  resultOf (loginAsync noOther rejectingClient someCredentials)
    (rootOf initialState)
  = resolved (loginAsync_rejected "Network Error")
  /\ surfacedError
       (resultOf (loginAsync noOther rejectingClient someCredentials)
          (rootOf initialState))
     <> None.
Proof. split; [reflexivity | discriminate]. Qed.

(** C5, amended: a rejected [loginAsync] leaves, from any state,
    [status = failed], [loggedIn = false] and an empty token, the same
    state whatever the error was, and from the initial state exactly
    [{loggedIn:false, token:"", status:"failed"}]; the promise of the
    invocation is not rejected: it resolves with the rejected action,
    which carries the client's error. *)
Theorem loginAsync_rejected_absorbed (state : LoginState) (rest : Other)
    (fetchLogin : string -> string -> Settled Response) (arg : Credentials)
    (reason : string) :
  fetchLogin (user arg) (password arg) = rejected reason ->
  (forall error : string,
      loginSlice_reducer state (loginAsync_rejected error) = failedState)
  /\ login (runThunk (loginAsync otherReducer fetchLogin arg)
              {| login := state; others := rest |}) = failedState
  /\ login (runThunk (loginAsync otherReducer fetchLogin arg)
              {| login := initialState; others := rest |})
     = {| loggedIn := false; token := ""; status := failed |}
  /\ resultOf (loginAsync otherReducer fetchLogin arg)
       {| login := state; others := rest |}
     = resolved (loginAsync_rejected reason).
Proof.
  intro Hfetch.
  split; [reflexivity |].
  rewrite !runThunk_loginAsync.
  unfold resultOf, loginAsync, evalState, payloadCreator.
  rewrite Hfetch.
  repeat split.
Qed.

End Store.

(** ** The state right after a login *)

(** C2, as the specification words it, fails in three ways: [logIn] and
    the fulfilled handler store an empty payload as it is, and [logIn]
    does not touch a [status] that is [loading]. *)
Lemma loginPostcondition_fails :
  ~ loginPostcondition (loginSlice_reducer initialState (logIn ""))
  /\ ~ loginPostcondition
         (loginSlice_reducer initialState (loginAsync_fulfilled ""))
  /\ ~ loginPostcondition
         (loginSlice_reducer
            (loginSlice_reducer initialState loginAsync_pending)
            (logIn "tok123")).
Proof.
  unfold loginPostcondition. simpl.
  repeat split; intros (_ & Htoken & Hstatus);
    first [ now apply Htoken | now apply Hstatus ].
Qed.

(** C2, amended: for a payload other than the empty string and any
    starting state, the fulfilled handler leaves [loggedIn = true], a
    token that is not empty and [status = idle], so not [loading]; the
    [logIn] reducer leaves [loggedIn = true] and a token that is not
    empty, and [status] as it was. *)
Theorem login_postcondition_nonempty (state : LoginState) (payload : string) :
  payload <> "" ->
  loginPostcondition (loginSlice_reducer state (loginAsync_fulfilled payload))
  /\ status (loginSlice_reducer state (loginAsync_fulfilled payload)) = idle
  /\ loggedIn (loginSlice_reducer state (logIn payload)) = true
  /\ token (loginSlice_reducer state (logIn payload)) <> ""
  /\ status (loginSlice_reducer state (logIn payload)) = status state.
Proof.
  intro Hpayload. unfold loginPostcondition. simpl.
  repeat split; try assumption. discriminate.
Qed.

(** ** The order of [status] *)

(** In a run without overlapping invocations [status] is [loading]
    exactly while an invocation is in flight, and every change of it is a
    move of the order. *)
Lemma sequential_followsLifecycle (actions : list Action) :
  forall (state : LoginState) (inFlight : bool),
    Status_eqb (status state) loading = inFlight ->
    sequential inFlight actions = true ->
    followsLifecycle (status state) (statusTrace state actions) = true.
Proof.
  induction actions as [| action rest IH]; intros state inFlight Hflight Hseq.
  - reflexivity.
  - cbn [statusTrace followsLifecycle].
    destruct action; cbn [sequential] in Hseq.
    + rewrite (IH _ inFlight); [| exact Hflight | exact Hseq].
      cbn. rewrite lifecycleMove_or_same_refl. reflexivity.
    + rewrite (IH _ inFlight); [| exact Hflight | exact Hseq].
      cbn. rewrite lifecycleMove_or_same_refl. reflexivity.
    + apply andb_true_iff in Hseq. destruct Hseq as [Hfree Hrest].
      rewrite (IH _ true); [| reflexivity | exact Hrest].
      destruct inFlight; [discriminate Hfree |].
      cbn. destruct (status state); [reflexivity | discriminate Hflight | reflexivity].
    + apply andb_true_iff in Hseq. destruct Hseq as [Hbusy Hrest].
      rewrite (IH _ false); [| reflexivity | exact Hrest].
      subst inFlight. apply Status_eqb_eq in Hbusy.
      cbn. rewrite Hbusy. reflexivity.
    + apply andb_true_iff in Hseq. destruct Hseq as [Hbusy Hrest].
      rewrite (IH _ false); [| reflexivity | exact Hrest].
      subst inFlight. apply Status_eqb_eq in Hbusy.
      cbn. rewrite Hbusy. reflexivity.
    + rewrite (IH _ inFlight); [| exact Hflight | exact Hseq].
      cbn. rewrite lifecycleMove_or_same_refl. reflexivity.
Qed.

(** C8, as the specification words it, fails when two invocations of
    [loginAsync] overlap: the first is fulfilled and the second rejected,
    and [status] goes from [idle] to [failed] with no [loading] in
    between. *)
Lemma status_order_broken_by_overlap :
  statusTrace initialState overlappingRun = [loading; loading; idle; failed]
  /\ followsLifecycle (status initialState)
       (statusTrace initialState overlappingRun) = false.
Proof. split; reflexivity. Qed.

(** C8, amended: [status] changes only through the three handlers of
    [loginAsync]; [logIn] and [logOut] leave it as it was; from [loading]
    it moves only to [idle], by the fulfilled handler, or to [failed], by
    the rejected handler; and in every run whose invocations of
    [loginAsync] do not overlap, started with [status] not [loading], it
    follows the order [idle/failed -> loading -> {idle, failed}]. *)
Theorem status_lifecycle :
  (forall state action,
      status (loginSlice_reducer state action) <> status state ->
      isLoginAsyncAction action = true)
  /\ (forall state payload,
         status (loginSlice_reducer state (logIn payload)) = status state)
  /\ (forall state, status (loginSlice_reducer state logOut) = status state)
  /\ (forall state action,
         status state = loading ->
         status (loginSlice_reducer state action) = loading
         \/ ((exists payload, action = loginAsync_fulfilled payload)
             /\ status (loginSlice_reducer state action) = idle)
         \/ ((exists error, action = loginAsync_rejected error)
             /\ status (loginSlice_reducer state action) = failed))
  /\ (forall state actions,
         status state <> loading ->
         sequential false actions = true ->
         followsLifecycle (status state) (statusTrace state actions) = true).
Proof.
  repeat split.
  - intros state action Hchange.
    destruct (isLoginAsyncAction action) eqn:Hkind; [reflexivity |].
    exfalso. apply Hchange. apply status_frame. exact Hkind.
  - intros state action Hloading.
    destruct action; simpl; auto.
    + right. left. split; [eexists; reflexivity | reflexivity].
    + right. right. split; [eexists; reflexivity | reflexivity].
  - intros state actions Hidle Hseq.
    apply sequential_followsLifecycle with (inFlight := false);
      [| exact Hseq].
    destruct (status state); [reflexivity | now elim Hidle | reflexivity].
Qed.

(** ** Runs on concrete states *)

(** The success scenario: from the initial state, [status] is [loading]
    while the invocation is pending, and the client's token ends in the
    state. *)
Example loginAsync_success_scenario :
  status (loginSlice_reducer initialState loginAsync_pending) = loading
  /\ login (runThunk (loginAsync noOther acceptingClient someCredentials)
              (rootOf initialState)) = sessionState.
Proof. split; reflexivity. Qed.

Lemma selectLoggedIn_empty_token_desync :
  token (login (rootOf desyncState)) = ""
  /\ selectLoggedIn (rootOf desyncState) = false.
Proof.
  split; [reflexivity |].
  apply (@selectLoggedIn_empty_token unit (rootOf desyncState)).
  reflexivity.
Defined.

Lemma logIn_authenticates_tok123 :
  "tok123" <> ""
  /\ selectLoggedIn (rootReducer noOther (rootOf initialState) (logIn "tok123"))
     = true
  /\ selectToken (rootReducer noOther (rootOf initialState) (logIn "tok123"))
     = "tok123".
Proof.
  split; [discriminate |].
  apply (@logIn_authenticates unit noOther (rootOf initialState) "tok123").
  discriminate.
Defined.

Lemma logOutIfLoggedIn_spec_runs :
  (selectLoggedIn (rootOf desyncState) = false
   /\ runThunk (logOutIfLoggedIn noOther) (rootOf desyncState)
      = rootOf desyncState)
  /\ (selectLoggedIn (rootOf sessionState) = true
      /\ runThunk (logOutIfLoggedIn noOther) (rootOf sessionState)
         = rootReducer noOther (rootOf sessionState) logOut
      /\ login (runThunk (logOutIfLoggedIn noOther) (rootOf sessionState))
         = reduce_logOut sessionState
      /\ login (runThunk (logOutIfLoggedIn noOther) (rootOf sessionState))
         = {| loggedIn := false; token := ""; status := idle |}
      /\ runThunk (logOutIfLoggedIn noOther) (rootOf sessionState)
         = runThunk (dispatch noOther logOut) (rootOf sessionState)).
Proof.
  split; (split; [reflexivity |]).
  - apply (proj1 (@logOutIfLoggedIn_spec unit noOther (rootOf desyncState))).
    reflexivity.
  - apply (proj2 (@logOutIfLoggedIn_spec unit noOther (rootOf sessionState))).
    reflexivity.
Defined.

Lemma loginAsync_rejected_absorbed_initial :
  rejectingClient (user someCredentials) (password someCredentials)
  = rejected someError
  /\ login (runThunk (loginAsync noOther rejectingClient someCredentials)
              (rootOf initialState))
     = {| loggedIn := false; token := ""; status := failed |}
  /\ resultOf (loginAsync noOther rejectingClient someCredentials)
       (rootOf initialState)
     = resolved (loginAsync_rejected someError).
Proof.
  split; [reflexivity |].
  destruct (@loginAsync_rejected_absorbed unit noOther initialState tt
              rejectingClient someCredentials someError)
    as (_ & _ & Hstate & Hresult); [reflexivity |].
  split; [exact Hstate | exact Hresult].
Defined.

Lemma login_postcondition_tok123 :
  "tok123" <> ""
  /\ loginPostcondition
       (loginSlice_reducer initialState (loginAsync_fulfilled "tok123"))
  /\ token (loginSlice_reducer initialState (logIn "tok123")) <> "".
Proof.
  split; [discriminate |].
  destruct (@login_postcondition_nonempty initialState "tok123")
    as (Hpost & _ & _ & Htoken & _); [discriminate |].
  split; assumption.
Defined.

Lemma status_lifecycle_sequentialRun :
  status initialState <> loading
  /\ sequential false sequentialRun = true
  /\ followsLifecycle (status initialState)
       (statusTrace initialState sequentialRun) = true
  /\ isLoginAsyncAction (loginAsync_rejected someError) = true.
Proof.
  destruct status_lifecycle as (Honly & _ & _ & _ & Horder).
  split; [discriminate |]. split; [reflexivity |]. split.
  - apply Horder; [discriminate | reflexivity].
  - apply (Honly sessionState (loginAsync_rejected someError)). discriminate.
Defined.

(** ** Runs of actions, step by step *)

Lemma runActions_cons (state : LoginState) (action : Action)
    (rest : list Action) :
  runActions state (action :: rest)
  = runActions (loginSlice_reducer state action) rest.
Proof. reflexivity. Qed.

Lemma runActions_app (state : LoginState) (pre post : list Action) :
  runActions state (pre ++ post) = runActions (runActions state pre) post.
Proof. unfold runActions. apply fold_left_app. Qed.

Lemma login_runStore (Other : Type) (otherReducer : Other -> Action -> Other)
    (actions : list Action) :
  forall root : RootState Other,
    login (runStore otherReducer root actions)
    = runActions (login root) actions.
Proof.
  induction actions as [| action rest IH]; intro root; [reflexivity |].
  unfold runStore in *. cbn [fold_left]. rewrite IH. reflexivity.
Qed.

(** Thunks composed in sequence run one after the other. *)
Lemma runThunk_seq (Other A B : Type)
    (first : state (RootState Other) A) (second : state (RootState Other) B)
    (root : RootState Other) :
  runThunk (first ;; second) root = runThunk second (runThunk first root).
Proof.
  unfold runThunk, execState. cbn.
  destruct (runState first root) as [result root']. reflexivity.
Qed.

(** ** No token without the flag *)

(** Each action keeps the token empty while the flag is down. *)
Lemma token_needs_flag_step (state : LoginState) (action : Action) :
  (loggedIn state = false -> token state = "") ->
  loggedIn (loginSlice_reducer state action) = false ->
  token (loginSlice_reducer state action) = "".
Proof.
  intros Hinv.
  destruct action; simpl; intro Hflag;
    first [ discriminate Hflag | reflexivity | exact (Hinv Hflag) ].
Qed.

Lemma token_needs_flag_run (actions : list Action) :
  forall state : LoginState,
    (loggedIn state = false -> token state = "") ->
    loggedIn (runActions state actions) = false ->
    token (runActions state actions) = "".
Proof.
  induction actions as [| action rest IH]; intros state Hinv.
  - exact Hinv.
  - rewrite runActions_cons. apply IH.
    apply token_needs_flag_step. exact Hinv.
Qed.

(** X1: no action of the slice leaves a token behind with the flag down:
    when [loggedIn = false] implies an empty token before a run of
    actions, it does so after it. *)
Theorem token_needs_flag_preserved (state : LoginState)
    (actions : list Action) :
  (loggedIn state = false -> token state = "") ->
  loggedIn (runActions state actions) = false ->
  token (runActions state actions) = "".
Proof.
  revert state.
  induction actions as [| action rest IH]; intros state Hinv Hflag.
  - apply Hinv. exact Hflag.
  - rewrite runActions_cons in *.
    apply IH; [apply token_needs_flag_step; exact Hinv | exact Hflag].
Qed.

(** ** Status and session do not influence each other *)

(** X3: along any run, the final [status] depends only on the starting
    [status], and the final [loggedIn] and [token] only on the starting
    [loggedIn] and [token]. *)
Theorem status_session_independent (actions : list Action) :
  forall s1 s2 : LoginState,
    (status s1 = status s2 ->
     status (runActions s1 actions) = status (runActions s2 actions))
    /\ (loggedIn s1 = loggedIn s2 -> token s1 = token s2 ->
        loggedIn (runActions s1 actions) = loggedIn (runActions s2 actions)
        /\ token (runActions s1 actions) = token (runActions s2 actions)).
Proof.
  induction actions as [| action rest IH]; intros s1 s2.
  - split; [intro H; exact H | intros Hflag Htoken; split; assumption].
  - rewrite !runActions_cons.
    destruct (IH (loginSlice_reducer s1 action) (loginSlice_reducer s2 action))
      as [IHstatus IHsession].
    split.
    + intro Hstatus. apply IHstatus. destruct action; simpl; congruence.
    + intros Hflag Htoken.
      apply IHsession; destruct action; simpl; congruence.
Qed.

(** X10: the last [loginAsync] action of a run decides [status]: whatever
    came before it and whatever state the run started from, [status] ends
    as that handler writes it, provided no [loginAsync] action follows. *)
Theorem last_loginAsync_action_decides_status
    (state anyState : LoginState) (pre post : list Action) (action : Action) :
  isLoginAsyncAction action = true ->
  forallb (fun later => negb (isLoginAsyncAction later)) post = true ->
  status (runActions state (pre ++ action :: post))
  = status (loginSlice_reducer anyState action).
Proof.
  intros Hkind Hpost.
  rewrite runActions_app, runActions_cons.
  generalize (runActions state pre). intro mid.
  assert (Hframe : forall s, status (runActions s post) = status s).
  { clear - Hpost. induction post as [| later rest IH]; intro s.
    - reflexivity.
    - cbn [forallb] in Hpost. apply andb_true_iff in Hpost.
      destruct Hpost as [Hlater Hrest].
      rewrite runActions_cons, (IH Hrest).
      apply status_frame. apply negb_true_iff. exact Hlater. }
  rewrite Hframe.
  destruct action; simpl; first [ discriminate Hkind | reflexivity ].
Qed.

(** X8: in a run whose [loginAsync] invocations do not overlap, started
    with none in flight and [status] not [loading], [status] ends as
    [loading] exactly when an invocation is still in flight. *)
Theorem status_loading_iff_in_flight (actions : list Action) :
  forall (state : LoginState) (inFlight : bool),
    Status_eqb (status state) loading = inFlight ->
    sequential inFlight actions = true ->
    Status_eqb (status (runActions state actions)) loading
    = Nat.ltb 0 (inFlightCount (if inFlight then 1 else 0) actions).
Proof.
  induction actions as [| action rest IH]; intros state inFlight Hflight Hseq.
  - cbn. rewrite Hflight. destruct inFlight; reflexivity.
  - rewrite runActions_cons. cbn [inFlightCount].
    destruct action; cbn [sequential] in Hseq.
    + apply IH; assumption.
    + apply IH; assumption.
    + apply andb_true_iff in Hseq. destruct Hseq as [Hfree Hrest].
      destruct inFlight; [discriminate Hfree |].
      apply (IH _ true); [reflexivity | exact Hrest].
    + apply andb_true_iff in Hseq. destruct Hseq as [Hbusy Hrest].
      subst inFlight. rewrite Hbusy.
      apply (IH _ false); [reflexivity | exact Hrest].
    + apply andb_true_iff in Hseq. destruct Hseq as [Hbusy Hrest].
      subst inFlight. rewrite Hbusy.
      apply (IH _ false); [reflexivity | exact Hrest].
    + apply IH; assumption.
Qed.

(** X9: a later write of the session absorbs what came before it.  After
    any action that is not a [loginAsync] action, [logOut] and [logIn]
    give the slice they give when dispatched directly; the fulfilled and
    the rejected handler do so after any action at all. *)
Theorem later_write_absorbs (state : LoginState) (action : Action)
    (payload error : string) :
  (isLoginAsyncAction action = false ->
   loginSlice_reducer (loginSlice_reducer state action) logOut
   = loginSlice_reducer state logOut
   /\ loginSlice_reducer (loginSlice_reducer state action) (logIn payload)
      = loginSlice_reducer state (logIn payload))
  /\ loginSlice_reducer (loginSlice_reducer state action)
       (loginAsync_fulfilled payload)
     = loginSlice_reducer state (loginAsync_fulfilled payload)
  /\ loginSlice_reducer (loginSlice_reducer state action)
       (loginAsync_rejected error)
     = loginSlice_reducer state (loginAsync_rejected error).
Proof.
  split; [| split; reflexivity].
  intro Hkind.
  destruct action; try discriminate Hkind; split; reflexivity.
Qed.

Section StoreRuns.

Variable Other : Type.
Variable otherReducer : Other -> Action -> Other.

(** X2: in every store reached from the initial login state by dispatching
    actions, [selectLoggedIn] answers [true] exactly when [selectToken]
    is not the empty string: the flag never lags behind the token. *)
Theorem selectLoggedIn_iff_token_reachable (rest : Other)
    (actions : list Action) :
  let root :=
    runStore otherReducer {| login := initialState; others := rest |} actions in
  selectLoggedIn root = true <-> selectToken root <> "".
Proof.
  intro root. unfold selectLoggedIn, selectToken.
  assert (Hinv : loggedIn (login root) = false -> token (login root) = "").
  { subst root. rewrite login_runStore.
    apply token_needs_flag_run. reflexivity. }
  split.
  - intro Hsel. apply andb_true_iff in Hsel. destruct Hsel as [Hne _].
    apply negb_true_iff in Hne. apply String.eqb_neq. exact Hne.
  - intro Hne. apply andb_true_iff. split.
    + apply negb_true_iff. apply String.eqb_neq. exact Hne.
    + destruct (loggedIn (login root)); [reflexivity |].
      elim Hne. apply Hinv. reflexivity.
Qed.

(** X4: a completed invocation of [loginAsync] overwrites the whole login
    slice: from any store it ends with the client's token, the flag up
    and [status = idle] when the client answers, and with the empty token,
    the flag down and [status = failed] when it fails; [status] is never
    left [loading]. *)
Theorem loginAsync_outcome (root : RootState Other)
    (fetchLogin : string -> string -> Settled Response) (arg : Credentials) :
  let root' := runThunk (loginAsync otherReducer fetchLogin arg) root in
  login root'
  = match fetchLogin (user arg) (password arg) with
    | resolved response =>
        {| loggedIn := true; token := data response; status := idle |}
    | rejected _ => {| loggedIn := false; token := ""; status := failed |}
    end
  /\ status (login root') <> loading.
Proof.
  cbn zeta. rewrite runThunk_loginAsync. unfold payloadCreator.
  destruct (fetchLogin (user arg) (password arg)) as [response | reason];
    split; first [ reflexivity | discriminate ].
Qed.

(** X6: after [logOutIfLoggedIn], from any store, [selectLoggedIn] answers
    [false], and running the thunk a second time changes nothing. *)
Theorem logOutIfLoggedIn_idempotent (root : RootState Other) :
  let root' := runThunk (logOutIfLoggedIn otherReducer) root in
  selectLoggedIn root' = false
  /\ runThunk (logOutIfLoggedIn otherReducer) root' = root'.
Proof.
  cbn zeta. rewrite !runThunk_logOutIfLoggedIn.
  destruct (selectLoggedIn root) eqn:Hsel.
  - split; reflexivity.
  - rewrite Hsel. split; reflexivity.
Qed.

(** X7: on the login slice, [logOutIfLoggedIn] ends as an unconditional
    [logOut] does exactly when [selectLoggedIn] answers [true] or the
    slice already has the flag down and the token empty; with the flag up
    and the token empty the thunk leaves the flag up. *)
Theorem logOutIfLoggedIn_agrees_with_logOut (root : RootState Other) :
  login (runThunk (logOutIfLoggedIn otherReducer) root)
  = loginSlice_reducer (login root) logOut
  <-> (selectLoggedIn root = true
       \/ (loggedIn (login root) = false /\ token (login root) = "")).
Proof.
  rewrite runThunk_logOutIfLoggedIn.
  destruct (selectLoggedIn root) eqn:Hsel.
  - split; [intros _; left; reflexivity | intros _; reflexivity].
  - destruct root as [[flag tok st] rest]. cbn in *. split.
    + intro Heq. right. inversion Heq. split; reflexivity.
    + intros [Habs | [Hflag Htok]]; [discriminate Habs |].
      rewrite Hflag, Htok. reflexivity.
Qed.

(** X5: a whole session.  When the client answers, [loginAsync] followed
    by [logOutIfLoggedIn] brings the login slice of any store back to the
    initial state if the token is not empty; with the empty token the
    log-out is skipped and the slice stays with the flag up and no token. *)
Theorem session_round_trip (root : RootState Other)
    (fetchLogin : string -> string -> Settled Response) (arg : Credentials)
    (response : Response) :
  fetchLogin (user arg) (password arg) = resolved response ->
  login (runThunk (loginAsync otherReducer fetchLogin arg ;;
                   logOutIfLoggedIn otherReducer) root)
  = if String.eqb (data response) "" then desyncState else initialState.
Proof.
  intro Hfetch.
  rewrite runThunk_seq, runThunk_logOutIfLoggedIn.
  assert (Hlogin :
    login (runThunk (loginAsync otherReducer fetchLogin arg) root)
    = {| loggedIn := true; token := data response; status := idle |}).
  { rewrite runThunk_loginAsync. unfold payloadCreator.
    rewrite Hfetch. reflexivity. }
  unfold selectLoggedIn. rewrite Hlogin. cbn [token loggedIn].
  destruct (String.eqb (data response) "") eqn:Hdata; cbn [negb andb].
  - rewrite Hlogin. apply String.eqb_eq in Hdata. rewrite Hdata. reflexivity.
  - rewrite login_rootReducer, Hlogin. reflexivity.
Qed.

End StoreRuns.

(** ** The extra properties on concrete runs *)

Lemma token_needs_flag_sequentialRun :
  (loggedIn initialState = false -> token initialState = "")
  /\ loggedIn (runActions initialState [logIn "tok123"; loginAsync_rejected someError])
     = false
  /\ token (runActions initialState [logIn "tok123"; loginAsync_rejected someError])
     = "".
Proof.
  split; [reflexivity |]. split; [reflexivity |].
  apply (@token_needs_flag_preserved initialState
           [logIn "tok123"; loginAsync_rejected someError]);
    reflexivity.
Defined.

Lemma selectLoggedIn_iff_token_sequentialRun :
  selectToken (runStore noOther (rootOf initialState) sequentialRun) <> ""
  /\ selectLoggedIn (runStore noOther (rootOf initialState) sequentialRun)
     = true.
Proof.
  split; [discriminate |].
  apply (proj2 (@selectLoggedIn_iff_token_reachable unit noOther tt
                  sequentialRun)).
  discriminate.
Defined.

Lemma status_session_independent_runs :
  status desyncState = status initialState
  /\ status (runActions desyncState sequentialRun)
     = status (runActions initialState sequentialRun)
  /\ loggedIn failedState = loggedIn initialState
  /\ token failedState = token initialState
  /\ token (runActions failedState overlappingRun)
     = token (runActions initialState overlappingRun).
Proof.
  split; [reflexivity |]. split.
  - apply (proj1 (@status_session_independent sequentialRun
                    desyncState initialState)).
    reflexivity.
  - split; [reflexivity |]. split; [reflexivity |].
    apply (proj2 (@status_session_independent overlappingRun
                    failedState initialState));
      reflexivity.
Defined.

Lemma last_loginAsync_action_decides_status_run :
  isLoginAsyncAction (loginAsync_rejected someError) = true
  /\ forallb (fun later => negb (isLoginAsyncAction later))
       [logIn "tok123"; foreignAction "room/enter"] = true
  /\ status (runActions sessionState
               ([loginAsync_pending; loginAsync_pending;
                 loginAsync_fulfilled "tok123"]
                ++ loginAsync_rejected someError
                   :: [logIn "tok123"; foreignAction "room/enter"]))
     = status (loginSlice_reducer initialState
                 (loginAsync_rejected someError)).
Proof.
  split; [reflexivity |]. split; [reflexivity |].
  apply (@last_loginAsync_action_decides_status sessionState initialState
           [loginAsync_pending; loginAsync_pending;
            loginAsync_fulfilled "tok123"]
           [logIn "tok123"; foreignAction "room/enter"]
           (loginAsync_rejected someError));
    reflexivity.
Defined.

Lemma status_loading_iff_in_flight_run :
  Status_eqb (status initialState) loading = false
  /\ sequential false
       [loginAsync_pending; loginAsync_rejected someError; logOut;
        loginAsync_pending]
     = true
  /\ Status_eqb
       (status (runActions initialState
                  [loginAsync_pending; loginAsync_rejected someError; logOut;
                   loginAsync_pending]))
       loading
     = Nat.ltb 0
         (inFlightCount 0
            [loginAsync_pending; loginAsync_rejected someError; logOut;
             loginAsync_pending]).
Proof.
  split; [reflexivity |]. split; [reflexivity |].
  apply (@status_loading_iff_in_flight
           [loginAsync_pending; loginAsync_rejected someError; logOut;
            loginAsync_pending]
           initialState false);
    reflexivity.
Defined.

Lemma later_write_absorbs_run :
  isLoginAsyncAction (logIn "tok123") = false
  /\ loginSlice_reducer (loginSlice_reducer failedState (logIn "tok123")) logOut
     = loginSlice_reducer failedState logOut.
Proof.
  split; [reflexivity |].
  apply (proj1 (@later_write_absorbs failedState (logIn "tok123") ""
                  someError)).
  reflexivity.
Defined.

Lemma logOutIfLoggedIn_agrees_with_logOut_session :
  selectLoggedIn (rootOf sessionState) = true
  /\ login (runThunk (logOutIfLoggedIn noOther) (rootOf sessionState))
     = loginSlice_reducer (login (rootOf sessionState)) logOut.
Proof.
  split; [reflexivity |].
  apply (proj2 (@logOutIfLoggedIn_agrees_with_logOut unit noOther
                  (rootOf sessionState))).
  left. reflexivity.
Defined.

Lemma session_round_trip_runs :
  (acceptingClient (user someCredentials) (password someCredentials)
   = resolved {| data := "tok123" |}
   /\ login (runThunk (loginAsync noOther acceptingClient someCredentials ;;
                       logOutIfLoggedIn noOther) (rootOf failedState))
      = initialState)
  /\ (emptyTokenClient (user someCredentials) (password someCredentials)
      = resolved {| data := "" |}
      /\ login (runThunk (loginAsync noOther emptyTokenClient someCredentials ;;
                          logOutIfLoggedIn noOther) (rootOf failedState))
         = desyncState).
Proof.
  split; (split; [reflexivity |]).
  - apply (@session_round_trip unit noOther (rootOf failedState)
             acceptingClient someCredentials {| data := "tok123" |}).
    reflexivity.
  - apply (@session_round_trip unit noOther (rootOf failedState)
             emptyTokenClient someCredentials {| data := "" |}).
    reflexivity.
Defined.
